(** * The account-settings page of book-app

    A shallow embedding of [src/pages/settings.tsx] (the settings form, its
    file-select handler, its submit handler and the server-side session gate)
    together with the properties stated for it.

    JavaScript strings are sequences of UTF-16 code units and [.length]
    counts code units, so a string value is a [list N]; string literals of
    the source are written with [lit].  The [errors] object of the form is a
    finite map from field names to field errors. *)

From Stdlib Require Import ZArith NArith QArith Lia.
From stdpp Require Import gmap strings list fin_maps.

Local Open Scope string_scope.
Local Open Scope list_scope.

(** ** JavaScript strings *)

Definition code_unit : Type := N.
Abbreviation jsstring := (list code_unit).

Fixpoint lit (s : string) : jsstring :=
  match s with
  | EmptyString => []
  | String a s' => Ascii.N_of_ascii a :: lit s'
  end.

(** [s.startsWith(pat)] at position 0. *)
Fixpoint startsWith (s pat : jsstring) {struct pat} : bool :=
  match pat, s with
  | [], _ => true
  | _ :: _, [] => false
  | p :: pat', c :: s' => (c =? p)%N && startsWith s' pat'
  end.

(** [String.prototype.indexOf]: the smallest index at which [pat] occurs in
    [s], and [-1] when it occurs nowhere.  [k] is the index of the head of
    [s] in the string the search started from. *)
Fixpoint indexOf_from (k : Z) (s pat : jsstring) : Z :=
  if startsWith s pat then k
  else match s with
       | [] => (-1)%Z
       | _ :: s' => indexOf_from (k + 1)%Z s' pat
       end.

Definition indexOf (s pat : jsstring) : Z := indexOf_from 0%Z s pat.

(** What "the string contains [pat]" means, independently of [indexOf]. *)
Definition contains (s pat : jsstring) : Prop :=
  exists pre post : jsstring, s = pre ++ pat ++ post.

(** ** Data *)

(** [type Inputs = { name: string; description: string; image: string }] *)
Record Inputs : Type := mkInputs {
  name : jsstring;
  description : jsstring;
  image : jsstring;
}.

(** The fields of a DOM [File] that the page reads. [file_size] is in bytes. *)
Record File : Type := mkFile {
  file_type : jsstring;
  file_size : N;
}.

(** A react-hook-form field error, as far as the page uses it. *)
Record FieldError : Type := mkFieldError {
  message : string;
}.

(** The [{url, key}] pair returned by [getPresignedUrl]. *)
Record Ticket : Type := mkTicket {
  url : jsstring;
  key : jsstring;
}.

(** The second argument of [fetch]. *)
Record RequestInit : Type := mkRequestInit {
  method : string;
  headers : list (string * jsstring);
  body : File;
}.

(** What a settled [fetch] promise carries: an HTTP response.  [fetch]
    rejects only when no response was obtained (network failure); an HTTP
    error answer fulfils the promise with that status. *)
Record Response : Type := mkResponse {
  status : N;
}.

Definition ok (r : Response) : bool := (200 <=? status r)%N && (status r <? 300)%N.

(** The argument of [updateUser]: [{ ...data, setupCompleted }]. *)
Record UpdateInput : Type := mkUpdateInput {
  input_name : jsstring;
  input_description : jsstring;
  input_image : jsstring;
  setupCompleted : bool;
}.

(** [{ ...data, setupCompleted: flag }] *)
Definition spread (data : Inputs) (flag : bool) : UpdateInput :=
  {| input_name := name data;
     input_description := description data;
     input_image := image data;
     setupCompleted := flag |}.

(** [data.image = v] *)
Definition set_image (data : Inputs) (v : jsstring) : Inputs :=
  {| name := name data; description := description data; image := v |}.

(** A settled promise.  The source never looks at the rejection reason
    ([catch {]), so none is kept. *)
Inductive outcome (A : Type) : Type :=
| Resolved (a : A)
| Rejected.
Arguments Resolved {A} a.
Arguments Rejected {A}.

(** The state the component renders from: react-hook-form's [formState] and
    field values, and the [selectedFile] state variable. *)
Record FormState : Type := mkFormState {
  values : Inputs;
  errors : gmap string FieldError;
  isSubmitting : bool;
  isSubmitted : bool;
  selectedFile : option File;
}.

(** ** Calls made by the handlers *)

Inductive request : Type :=
| ClearErrors (field : string)
| SetError (field : string) (e : FieldError)
| SetSelectedFile (f : File)
| GetPresignedUrl
| Fetch (target : jsstring) (init : RequestInit)
| UpdateUser (input : UpdateInput)
| ToastSuccess (msg : string)
| ToastError (msg : string).

Definition reply (r : request) : Type :=
  match r with
  | GetPresignedUrl => outcome Ticket
  | Fetch _ _ => outcome Response
  | UpdateUser _ => outcome unit
  | _ => unit
  end.

(** A handler is a tree of calls, each continued with the call's answer. *)
Inductive prog (A : Type) : Type :=
| Ret (a : A)
| Call (r : request) (k : reply r -> prog A).
Arguments Ret {A} a.
Arguments Call {A} r k.

Fixpoint bind {A B : Type} (p : prog A) (f : A -> prog B) : prog B :=
  match p with
  | Ret a => f a
  | Call r k => Call r (fun x => bind (k x) f)
  end.

Definition call (r : request) : prog (reply r) := Call r Ret.

(** The handlers are written with the monad notations [x ← p; q] and
    [p ;; q]. *)
#[global] Instance prog_ret : MRet prog := @Ret.
#[global] Instance prog_bind : MBind prog := fun A B f p => bind p f.

(** The remote side of one submission: how each of the three network calls
    settles. *)
Record Network : Type := mkNetwork {
  presign : outcome Ticket;
  put : jsstring -> RequestInit -> outcome Response;
  update : UpdateInput -> outcome unit;
}.

Definition answer (net : Network) (r : request) : reply r :=
  match r with
  | GetPresignedUrl => presign net
  | Fetch target init => put net target init
  | UpdateUser input => update net input
  | ClearErrors _ => tt
  | SetError _ _ => tt
  | SetSelectedFile _ => tt
  | ToastSuccess _ => tt
  | ToastError _ => tt
  end.

(** The effect of a call on the form state: [clearErrors(field)] removes
    the entry, [setError(field, e)] writes it, [setSelectedFile(f)] stores
    the file; the network calls and the toasts leave the form alone. *)
Definition effect (r : request) (st : FormState) : FormState :=
  match r with
  | ClearErrors field =>
      {| values := values st; errors := delete field (errors st);
         isSubmitting := isSubmitting st; isSubmitted := isSubmitted st;
         selectedFile := selectedFile st |}
  | SetError field e =>
      {| values := values st; errors := <[field := e]> (errors st);
         isSubmitting := isSubmitting st; isSubmitted := isSubmitted st;
         selectedFile := selectedFile st |}
  | SetSelectedFile f =>
      {| values := values st; errors := errors st;
         isSubmitting := isSubmitting st; isSubmitted := isSubmitted st;
         selectedFile := Some f |}
  | _ => st
  end.

(** Running a handler: the final form state and the calls made, in order. *)
Fixpoint run {A : Type} (net : Network) (p : prog A) (st : FormState)
  : A * FormState * list request :=
  match p with
  | Ret a => (a, st, [])
  | Call r k =>
      let '(a, st', calls) := run net (k (answer net r)) (effect r st) in
      (a, st', r :: calls)
  end.

Definition final {A : Type} (x : A * FormState * list request) : FormState := snd (fst x).
Definition calls {A : Type} (x : A * FormState * list request) : list request := snd x.

(** Field updates of the form state. *)
Definition with_values (v : Inputs) (st : FormState) : FormState :=
  {| values := v; errors := errors st; isSubmitting := isSubmitting st;
     isSubmitted := isSubmitted st; selectedFile := selectedFile st |}.

Definition with_errors (e : gmap string FieldError) (st : FormState) : FormState :=
  {| values := values st; errors := e; isSubmitting := isSubmitting st;
     isSubmitted := isSubmitted st; selectedFile := selectedFile st |}.

Definition with_submitting (b : bool) (st : FormState) : FormState :=
  {| values := values st; errors := errors st; isSubmitting := b;
     isSubmitted := isSubmitted st; selectedFile := selectedFile st |}.

Definition with_submitted (b : bool) (st : FormState) : FormState :=
  {| values := values st; errors := errors st; isSubmitting := isSubmitting st;
     isSubmitted := b; selectedFile := selectedFile st |}.

(** ** The file-select handler *)

(** [file.size / 1024].  The size is an integer and 1024 a power of two, so
    the floating-point quotient is the exact rational one. *)
Definition kilobytes (f : File) : Q := inject_Z (Z.of_N (file_size f)) / 1024.

(** [a > b] on numbers. *)
Definition Qgtb (a b : Q) : bool := negb (Qle_bool a b).

(** [handleFileSelect], applied to [event?.target?.files?.[0]].  The guard
    [file && file.size] is false for no file and for a size of 0. *)
Definition handleFileSelect (file : option File) : prog unit :=
  call (ClearErrors "image") ;;
  match file with
  | Some f =>
      if (file_size f =? 0)%N then mret tt
      else if (indexOf (file_type f) (lit "image") =? -1)%Z
      then call (SetError "image" {| message := "Only images are allowed." |})
      else if Qgtb (kilobytes f) 5120
      then call (SetError "image" {| message := "Maximum file size is 5MB." |})
      else call (SetSelectedFile f)
  | None => mret tt
  end.

(** ** The form's schema and resolver *)

Record ZodIssue : Type := mkIssue {
  path : string;
  issue_message : string;
}.

(** [z.string().min(lo, {message})]: an issue when [length < lo]. *)
Definition zmin (lo : nat) (field msg : string) (s : jsstring) : list ZodIssue :=
  if (length s <? lo)%nat then [mkIssue field msg] else [].

(** [z.string().max(hi, {message})]: an issue when [length > hi]. *)
Definition zmax (hi : nat) (field msg : string) (s : jsstring) : list ZodIssue :=
  if (hi <? length s)%nat then [mkIssue field msg] else [].

(** The errors object the resolver builds from the issues: one entry per
    path, the first issue of a path winning. *)
Definition toFieldErrors (issues : list ZodIssue) : gmap string FieldError :=
  foldr (fun i m => <[path i := {| message := issue_message i |}]> m) ∅ issues.

Record ResolverResult : Type := mkResolverResult {
  parsed : option Inputs;
  fieldErrors : gmap string FieldError;
}.

(** The outcome of [getServerSideProps]: a redirect instruction, or the
    props of the page. *)
Inductive GetServerSidePropsResult (User : Type) : Type :=
| redirect (destination : jsstring) (permanent : bool)
| props (user : option User).
Arguments redirect {User} destination permanent.
Arguments props {User} user.

(** The user record a result hands to the page, if any. *)
Definition exposedUser {User : Type} (r : GetServerSidePropsResult User) : option User :=
  match r with
  | redirect _ _ => None
  | props u => u
  end.

Definition isRedirect {User : Type} (r : GetServerSidePropsResult User) : bool :=
  match r with
  | redirect _ _ => true
  | props _ => false
  end.

(** What [useAuth(context)] returns in the earlier revision of the page. *)
Record AuthResult (User : Type) : Type := mkAuthResult {
  redirectDestination : option jsstring;
  user : option User;
}.
Arguments mkAuthResult {User} redirectDestination user.
Arguments redirectDestination {User} a.
Arguments user {User} a.

(** The request/response pair handed to [getServerSideProps]. *)
Record Context (Req Res : Type) : Type := mkContext {
  req : Req;
  res : Res;
}.
Arguments mkContext {Req Res} req res.
Arguments req {Req Res} c.
Arguments res {Req Res} c.

(** A network on which every call is rejected; used to run the handler
    that makes no network call. *)
Definition offline : Network :=
  {| presign := Rejected; put := fun _ _ => Rejected; update := fun _ => Rejected |}.

(** The state of a rendered page: the form, the submissions whose handler
    has not settled yet (with the [selectedFile] and the data each one
    captured), and every call made so far. *)
Record Page : Type := mkPage {
  form : FormState;
  inflight : list (option File * Inputs);
  history : list request;
}.

(** What can happen to a rendered page. *)
Inductive event : Type :=
| FileChosen (file : option File)
| NameTyped (s : jsstring)
| DescriptionTyped (s : jsstring)
| SubmitRequested
| Settled (net : Network).

(** JavaScript truthiness of a possibly undefined object. *)
Definition truthy {A : Type} (o : option A) : bool :=
  match o with
  | Some _ => true
  | None => false
  end.

(** JavaScript truthiness of a possibly undefined string: the empty string
    is falsy. *)
Definition truthyString (o : option jsstring) : bool :=
  match o with
  | Some (_ :: _) => true
  | _ => false
  end.

(** The calls to the update endpoint among a list of calls. *)
Definition updateCalls (l : list request) : list UpdateInput :=
  omap (fun r => match r with UpdateUser i => Some i | _ => None end) l.

(** ** Concrete inputs *)

Definition plainTextEmpty : File := {| file_type := lit "text/plain"; file_size := 0 |}.
Definition plainText : File := {| file_type := lit "text/plain"; file_size := 10 |}.
Definition jpeg2MB : File := {| file_type := lit "image/jpeg"; file_size := 2 * 1024 * 1024 |}.
Definition jpeg6MB : File := {| file_type := lit "image/jpeg"; file_size := 6 * 1024 * 1024 |}.
Definition alice : Inputs :=
  {| name := lit "Alice"; description := lit "Hi";
     image := lit "https://example.com/a.png" |}.

Definition bucket : jsstring := lit "https://bucket.example.com".
Definition ticket1 : Ticket :=
  {| url := lit "https://storage.example.com/put?sig=1"; key := lit "k1" |}.

(** A network on which everything succeeds. *)
Definition healthy : Network :=
  {| presign := Resolved ticket1;
     put := fun _ _ => Resolved {| status := 200 |};
     update := fun _ => Resolved tt |}.

(** The ticket is issued and the update endpoint works, but object storage
    answers the PUT with 403 Forbidden. *)
Definition putForbidden : Network :=
  {| presign := Resolved ticket1;
     put := fun _ _ => Resolved {| status := 403 |};
     update := fun _ => Resolved tt |}.

(** The update endpoint fails. *)
Definition updateDown : Network :=
  {| presign := Resolved ticket1;
     put := fun _ _ => Resolved {| status := 200 |};
     update := fun _ => Rejected |}.

Definition blank : Inputs := {| name := []; description := []; image := [] |}.
Definition longName : Inputs :=
  {| name := lit "fourteen chars"; description := []; image := [] |}.

(** The ticket request fails. *)
Definition ticketDown : Network :=
  {| presign := Rejected;
     put := fun _ _ => Resolved {| status := 200 |};
     update := fun _ => Resolved tt |}.

Definition anyURL : jsstring -> bool := fun _ => true.
Definition noSession : unit -> unit -> unit -> option unit := fun _ _ _ => None.

Section BookApp.

(** [env.NEXT_PUBLIC_BUCKET_URL] *)
Variable NEXT_PUBLIC_BUCKET_URL : jsstring.

(** Whether [new URL(s)] accepts [s]: the test behind [z.string().url()]. *)
Variable isURL : jsstring -> bool.

(** The schema given to [zodResolver]: the issues it raises on [d]. *)
Definition schema (d : Inputs) : list ZodIssue :=
  (zmin 1 "name" "Username is required." (name d)
   ++ zmax 13 "name" "Username must be 13 characters or less." (name d))
  ++ (if isURL (image d) then [] else [mkIssue "image" "Invalid url"]).

Definition resolver (d : Inputs) : ResolverResult :=
  match schema d with
  | [] => {| parsed := Some d; fieldErrors := ∅ |}
  | issues => {| parsed := None; fieldErrors := toFieldErrors issues |}
  end.

(** ** The submit handler *)

(** The [catch] block of the upload: mark the image field, notify, and
    [return] (no data to go on with). *)
Definition uploadFailed : prog (option Inputs) :=
  call (SetError "image" {| message := "" |}) ;;
  call (ToastError "Couldn't upload your file.") ;;
  mret None.

(** The first [try] of [onSubmit]: the data to submit, or [None] when the
    handler returned from the [catch] block. *)
Definition upload (selectedFile : option File) (data : Inputs) : prog (option Inputs) :=
  match selectedFile with
  | Some file =>
      t ← call GetPresignedUrl;
      match t with
      | Resolved ticket =>
          r ← call (Fetch (url ticket)
                      {| method := "PUT";
                         headers := [("Content-Type", file_type file)];
                         body := file |});
          match r with
          | Resolved _ =>
              mret (Some (set_image data (NEXT_PUBLIC_BUCKET_URL ++ lit "/" ++ key ticket)))
          | Rejected => uploadFailed
          end
      | Rejected => uploadFailed
      end
  | None => mret (Some data)
  end.

Definition onSubmit (selectedFile : option File) (data : Inputs) : prog unit :=
  d ← upload selectedFile data;
  match d with
  | None => mret tt
  | Some data =>
      r ← call (UpdateUser (spread data true));
      match r with
      | Resolved _ => call (ToastSuccess "Account settings saved!")
      | Rejected => call (ToastError "Something went wrong!")
      end
  end.

(** ** The submit control *)

(** An entry of the errors object is an object when present, hence
    truthy whatever its message. *)
Definition thereAreErrors (errors : gmap string FieldError) : bool :=
  if truthy (errors !! "description") || truthy (errors !! "image")
     || truthy (errors !! "name")
  then true
  else false.

(** [disabled={formState.isSubmitting || thereAreErrors()}] *)
Definition submitDisabled (st : FormState) : bool :=
  isSubmitting st || thereAreErrors (errors st).


(** ** The page as a transition system *)

(** The form as first rendered for [user]: [defaultValues] taken from
    the user record, no error, nothing staged. *)
Definition initialForm (defaults : Inputs) : FormState :=
  {| values := defaults; errors := ∅; isSubmitting := false;
     isSubmitted := false; selectedFile := None |}.

Definition initialPage (defaults : Inputs) : Page :=
  {| form := initialForm defaults; inflight := []; history := [] |}.

(** Re-validation of one registered field after an edit (react-hook-form
    re-validates on change once the form has been submitted): the
    field's entry of the errors object is replaced by what the resolver
    says about it. *)
Definition revalidate (field : string) (st : FormState) : FormState :=
  if isSubmitted st then
    match fieldErrors (resolver (values st)) !! field with
    | Some e => with_errors (<[field := e]> (errors st)) st
    | None => with_errors (delete field (errors st)) st
    end
  else st.

(** [handleSubmit(onSubmit)] up to the call of [onSubmit]: the resolver
    runs on the current values; its errors replace the errors object;
    with no error the handler is started on the parsed data, with the
    [selectedFile] of this render. *)
Definition beginSubmit (p : Page) : Page :=
  let st := form p in
  let r := resolver (values st) in
  match parsed r with
  | Some data =>
      {| form := with_submitting true (with_errors ∅ st);
         inflight := inflight p ++ [(selectedFile st, data)];
         history := history p |}
  | None =>
      {| form := with_submitted true (with_errors (fieldErrors r) st);
         inflight := inflight p;
         history := history p |}
  end.

(** The oldest started handler runs to its end against [net]; then
    [handleSubmit] clears [isSubmitting]. *)
Definition settle (net : Network) (p : Page) : Page :=
  match inflight p with
  | [] => p
  | (file, data) :: rest =>
      let out := run net (onSubmit file data) (form p) in
      {| form := with_submitted true (with_submitting false (final out));
         inflight := rest;
         history := history p ++ calls out |}
  end.

(** One event.  The browser delivers no submit event through a disabled
    submit control and no change event from a disabled input; the text
    inputs and the file input carry [disabled={formState.isSubmitting}]. *)
Definition step (p : Page) (e : event) : Page :=
  match e with
  | SubmitRequested =>
      if submitDisabled (form p) then p else beginSubmit p
  | Settled net => settle net p
  | FileChosen file =>
      if isSubmitting (form p) then p
      else
        let out := run offline (handleFileSelect file) (form p) in
        {| form := final out; inflight := inflight p;
           history := history p ++ calls out |}
  | NameTyped s =>
      if isSubmitting (form p) then p
      else
        let st := form p in
        let v := {| name := s; description := description (values st);
                    image := image (values st) |} in
        {| form := revalidate "name" (with_values v st);
           inflight := inflight p; history := history p |}
  | DescriptionTyped s =>
      if isSubmitting (form p) then p
      else
        let st := form p in
        let v := {| name := name (values st); description := s;
                    image := image (values st) |} in
        {| form := revalidate "description" (with_values v st);
           inflight := inflight p; history := history p |}
  end.

Definition exec (evs : list event) (p : Page) : Page := foldl step p evs.

(** The page states that sequences of events lead to from the first
    render. *)
Definition reachable (defaults : Inputs) (p : Page) : Prop :=
  exists evs : list event, p = exec evs (initialPage defaults).

(** The flag [isSubmitting] counts the handlers that have not settled. *)
Definition serialized (p : Page) : Prop :=
  length (inflight p) = if isSubmitting (form p) then 1 else 0.

(** Whether event [e] starts a submission in page state [p]. *)
Definition startsSubmission (p : Page) (e : event) : Prop :=
  length (inflight p) < length (inflight (step p e)).

(** [onSubmit] performed once per element of [nets] on the same data,
    each time with the [selectedFile] the form then holds: the calls of
    each performance, and the form at the end. *)
Fixpoint resubmit (nets : list Network) (data : Inputs) (st : FormState)
  : list (list request) * FormState :=
  match nets with
  | [] => ([], st)
  | net :: nets' =>
      let out := run net (onSubmit (selectedFile st) data) st in
      let '(logs, st') := resubmit nets' data (final out) in
      (calls out :: logs, st')
  end.

(** ** The session gate *)

Variables Req Res AuthOptions Session User : Type.

(** [getServerSession] of next-auth: the session of the request, or
    nothing ([null]) when there is none. *)
Variable getServerSession : Req -> Res -> AuthOptions -> option Session.
Variable authOptions : AuthOptions.

(** [getServerAuthSession] *)
Definition getServerAuthSession (ctx : Context Req Res) : option Session :=
  getServerSession (req ctx) (res ctx) authOptions.

(** The external login destination, and the lookup of the full user
    record of a session. *)
Variable loginDestination : jsstring.
Variable fetchUser : Session -> User.

(** Modelled from the spec: [authRequired] (utils/auth-required), which
    the page's [getServerSideProps] delegates to, is not among the
    sources.  Per the spec's Session Gate: resolve the caller's session;
    if absent, produce a redirect instruction to the external login
    destination; if present, fetch the full user record and pass it as
    the page's input property. *)
Definition authRequired (ctx : Context Req Res) : GetServerSidePropsResult User :=
  match getServerAuthSession ctx with
  | None => redirect loginDestination false
  | Some session => props (Some (fetchUser session))
  end.

(** [getServerSideProps] of the page: [return await authRequired(context)]. *)
Definition getServerSideProps (ctx : Context Req Res) : GetServerSidePropsResult User :=
  authRequired ctx.

(** [getServerSideProps] of the earlier revision of the page, over the
    [useAuth] helper it calls. *)
Definition getServerSideProps_useAuth
    (useAuth : Context Req Res -> AuthResult User) (ctx : Context Req Res)
  : GetServerSidePropsResult User :=
  let r := useAuth ctx in
  if truthyString (redirectDestination r)
  then redirect (default [] (redirectDestination r)) false
  else props (user r).

(** The PUT request issued for a staged file under a ticket. *)
Definition putRequest (file : File) (t : Ticket) : request :=
  Fetch (url t)
    {| method := "PUT"; headers := [("Content-Type", file_type file)]; body := file |}.

(** The public URL derived from a ticket: [`${bucket}/${key}`]. *)
Definition publicUrl (t : Ticket) : jsstring :=
  NEXT_PUBLIC_BUCKET_URL ++ lit "/" ++ key t.

(** The second [try] of [onSubmit]. *)
Definition updateTail (net : Network) (data : Inputs) : list request :=
  UpdateUser (spread data true) ::
  match update net (spread data true) with
  | Resolved _ => [ToastSuccess "Account settings saved!"]
  | Rejected => [ToastError "Something went wrong!"]
  end.

Definition uploadFailedCalls : list request :=
  [SetError "image" {| message := "" |}; ToastError "Couldn't upload your file."].

(** Case analysis on a membership [H : r ∈ [r1; ...; rn]] in a list of
    calls, dropping the elements that cannot be [r]. *)
Ltac calls_cases H :=
  repeat match type of H with
         | _ ∈ _ :: _ => apply elem_of_cons in H as [H | H]; [try discriminate H |]
         | _ ∈ [] => by apply elem_of_nil in H
         end.

(** ** Vocabulary of the further properties *)

(** The files the file-select handler lets through: a type that contains
    "image" and a size in (0, 5120 * 1024] bytes. *)
Definition acceptable (f : File) : Prop :=
  contains (file_type f) (lit "image") /\ (0 < file_size f <= 5120 * 1024)%N.

Definition isToast (r : request) : bool :=
  match r with
  | ToastSuccess _ | ToastError _ => true
  | _ => false
  end.

Definition isTicketRequest (r : request) : bool :=
  match r with
  | GetPresignedUrl => true
  | _ => false
  end.

Definition isPut (r : request) : bool :=
  match r with
  | Fetch _ _ => true
  | _ => false
  end.

Definition isUpdate (r : request) : bool :=
  match r with
  | UpdateUser _ => true
  | _ => false
  end.

(** How many of the calls satisfy [P]. *)
Definition count (P : request -> bool) (l : list request) : nat :=
  length (List.filter P l).

(** The effect of a sequence of calls on the form. *)
Definition applyCalls (st : FormState) (l : list request) : FormState :=
  foldl (fun s r => effect r s) st l.

(** The calls that act on the form only. *)
Definition isFormCall (r : request) : bool :=
  match r with
  | ClearErrors _ | SetError _ _ | SetSelectedFile _ => true
  | _ => false
  end.

(** What a call made by the page should satisfy: an update carries a name
    of 1 to 13 code units and [setupCompleted: true]; a PUT carries an
    acceptable file. *)
Definition okCall (r : request) : Prop :=
  match r with
  | UpdateUser i => 1 <= length (input_name i) <= 13 /\ setupCompleted i = true
  | Fetch _ init => method init = "PUT" /\ acceptable (body init)
  | _ => True
  end.

(** The started handlers hold data the resolver accepted and, if any, a
    file the file-select handler let through. *)
Definition okSubmission (x : option File * Inputs) : Prop :=
  (forall f, x.1 = Some f -> acceptable f) /\ parsed (resolver x.2) = Some x.2.

Definition wellFormed (p : Page) : Prop :=
  (forall f, selectedFile (form p) = Some f -> acceptable f) /\
  Forall okSubmission (inflight p) /\
  Forall okCall (history p).

(** Concrete inputs of the further properties. *)
Definition putDown : Network :=
  {| presign := Resolved ticket1;
     put := fun _ _ => Rejected;
     update := fun _ => Resolved tt |}.

Definition jpegStaged : FormState :=
  effect (SetSelectedFile jpeg2MB) (initialForm alice).

Definition loginRequired : Context unit unit -> AuthResult unit :=
  fun _ => mkAuthResult (Some (lit "/login")) None.

(** ** Properties *)

(** *** Strings *)

Lemma startsWith_spec (pat s : jsstring) :
  startsWith s pat = true <-> exists post, s = pat ++ post.
Proof.
  revert s. induction pat as [|p pat IH]; intros s; simpl.
  - split; [intros _; by exists s | done].
  - destruct s as [|c s].
    + split; [done | intros [post H]; discriminate H].
    + rewrite andb_true_iff, N.eqb_eq, IH. split.
      * intros [-> [post ->]]. by exists post.
      * intros [post H]. injection H as -> ->. eauto.
Qed.

Lemma contains_nil (pat : jsstring) :
  contains [] pat <-> startsWith [] pat = true.
Proof.
  split.
  - intros (pre & post & H). symmetry in H.
    apply app_eq_nil in H as [_ H]. apply app_eq_nil in H as [-> _]. done.
  - destruct pat as [|p pat]; simpl; [intros _; by exists [], [] | done].
Qed.

Lemma contains_cons (c : code_unit) (s pat : jsstring) :
  contains (c :: s) pat <-> startsWith (c :: s) pat = true \/ contains s pat.
Proof.
  split.
  - intros (pre & post & H). destruct pre as [|c' pre].
    + left. apply startsWith_spec. by exists post.
    + right. injection H as _ ->. by exists pre, post.
  - intros [H | (pre & post & ->)].
    + apply startsWith_spec in H as [post H]. by exists [], post.
    + by exists (c :: pre), post.
Qed.

Lemma indexOf_from_lower (pat s : jsstring) (k : Z) :
  indexOf_from k s pat = (-1)%Z \/ (k <= indexOf_from k s pat)%Z.
Proof.
  revert k. induction s as [|c s IH]; intros k; simpl.
  - destruct (startsWith [] pat); [right; lia | by left].
  - destruct (startsWith (c :: s) pat); [right; lia |].
    destruct (IH (k + 1)%Z) as [H | H]; [by left | right; lia].
Qed.

Lemma indexOf_from_not_found (pat s : jsstring) (k : Z) :
  (0 <= k)%Z -> indexOf_from k s pat = (-1)%Z <-> ~ contains s pat.
Proof.
  revert k. induction s as [|c s IH]; intros k Hk; simpl.
  - rewrite contains_nil. destruct (startsWith [] pat).
    + split; [lia | intros H; by destruct H].
    + split; [intros _; discriminate | done].
  - rewrite contains_cons. destruct (startsWith (c :: s) pat).
    + split; [lia | intros H; destruct H; by left].
    + rewrite IH by lia. split.
      * intros H [H' | H']; [discriminate | done].
      * intros H H'. apply H. by right.
Qed.

(** [s.indexOf(pat) === -1] says exactly that [s] does not contain [pat]. *)
Lemma indexOf_not_found (s pat : jsstring) :
  indexOf s pat = (-1)%Z <-> ~ contains s pat.
Proof. apply indexOf_from_not_found. lia. Qed.

Lemma indexOf_eqb_not_found (s pat : jsstring) :
  (indexOf s pat =? -1)%Z = true <-> ~ contains s pat.
Proof. rewrite Z.eqb_eq. apply indexOf_not_found. Qed.

Lemma indexOf_from_found (pat s : jsstring) (k : Z) :
  indexOf_from k s pat <> (-1)%Z -> contains s pat.
Proof.
  revert k. induction s as [|c s IH]; intros k; simpl.
  - destruct (startsWith [] pat) eqn:E; [| done].
    intros _. by apply contains_nil.
  - destruct (startsWith (c :: s) pat) eqn:E; intros H; apply contains_cons.
    + by left.
    + right. by apply (IH (k + 1)%Z).
Qed.

Lemma indexOf_eqb_found (s pat : jsstring) :
  (indexOf s pat =? -1)%Z = false <-> contains s pat.
Proof.
  split.
  - intros H. apply Z.eqb_neq in H. by apply (indexOf_from_found pat s 0%Z).
  - intros H. destruct (indexOf s pat =? -1)%Z eqn:E; [| done].
    apply indexOf_eqb_not_found in E. by destruct E.
Qed.

(** *** The file-select handler *)

(** [file.size / 1024 > 5120] holds exactly when the size exceeds
    [5120 * 1024] bytes. *)
Lemma Qgtb_kilobytes (f : File) :
  Qgtb (kilobytes f) 5120 = true <-> (5120 * 1024 < file_size f)%N.
Proof.
  unfold Qgtb. rewrite negb_true_iff, <- not_true_iff_false, Qle_bool_iff.
  unfold kilobytes, Qle, Qdiv, Qmult, Qinv, inject_Z. simpl. lia.
Qed.

(** The three ways out of the handler once the guard has passed. *)
Lemma handleFileSelect_empty (net : Network) (f : File) (st : FormState) :
  file_size f = 0%N ->
  run net (handleFileSelect (Some f)) st
  = (tt, effect (ClearErrors "image") st, [ClearErrors "image"]).
Proof. intros H. unfold handleFileSelect. rewrite H. reflexivity. Qed.

Lemma handleFileSelect_not_image (net : Network) (f : File) (st : FormState) :
  file_size f <> 0%N ->
  ~ contains (file_type f) (lit "image") ->
  run net (handleFileSelect (Some f)) st
  = (tt,
     effect (SetError "image" {| message := "Only images are allowed." |})
       (effect (ClearErrors "image") st),
     [ClearErrors "image";
      SetError "image" {| message := "Only images are allowed." |}]).
Proof.
  intros Hs Ht. unfold handleFileSelect.
  apply N.eqb_neq in Hs. apply indexOf_eqb_not_found in Ht.
  rewrite Hs, Ht. reflexivity.
Qed.

Lemma handleFileSelect_too_big (net : Network) (f : File) (st : FormState) :
  contains (file_type f) (lit "image") ->
  (5120 * 1024 < file_size f)%N ->
  run net (handleFileSelect (Some f)) st
  = (tt,
     effect (SetError "image" {| message := "Maximum file size is 5MB." |})
       (effect (ClearErrors "image") st),
     [ClearErrors "image";
      SetError "image" {| message := "Maximum file size is 5MB." |}]).
Proof.
  intros Ht Hs. unfold handleFileSelect.
  assert ((file_size f =? 0)%N = false) as -> by (apply N.eqb_neq; lia).
  apply indexOf_eqb_found in Ht. apply Qgtb_kilobytes in Hs.
  rewrite Ht, Hs. reflexivity.
Qed.

Lemma handleFileSelect_staged (net : Network) (f : File) (st : FormState) :
  contains (file_type f) (lit "image") ->
  (0 < file_size f <= 5120 * 1024)%N ->
  run net (handleFileSelect (Some f)) st
  = (tt, effect (SetSelectedFile f) (effect (ClearErrors "image") st),
     [ClearErrors "image"; SetSelectedFile f]).
Proof.
  intros Ht Hs. unfold handleFileSelect.
  assert ((file_size f =? 0)%N = false) as -> by (apply N.eqb_neq; lia).
  apply indexOf_eqb_found in Ht. rewrite Ht.
  destruct (Qgtb (kilobytes f) 5120) eqn:E; [| reflexivity].
  apply Qgtb_kilobytes in E. lia.
Qed.

(** C10: every file-select event starts by clearing the image-field error;
    when no file is chosen, or the chosen file has size 0, that is all the
    handler does, whatever the file's type: no error is set (the image
    field ends without one) and the staged file is left as it was, so a
    zero-byte file is neither rejected nor staged. *)
Theorem file_select_clears_first_and_skips_empty
    (net : Network) (file : option File) (st : FormState) :
  (exists rest,
      calls (run net (handleFileSelect file) st) = ClearErrors "image" :: rest) /\
  ((file = None \/ exists f, file = Some f /\ file_size f = 0%N) ->
   calls (run net (handleFileSelect file) st) = [ClearErrors "image"] /\
   final (run net (handleFileSelect file) st) = effect (ClearErrors "image") st /\
   errors (final (run net (handleFileSelect file) st)) !! "image" = None /\
   selectedFile (final (run net (handleFileSelect file) st)) = selectedFile st).
Proof.
  split.
  - unfold handleFileSelect.
    destruct file as [f|]; [| simpl; eauto].
    destruct (file_size f =? 0)%N; [simpl; eauto |].
    destruct (indexOf (file_type f) (lit "image") =? -1)%Z; [simpl; eauto |].
    destruct (Qgtb (kilobytes f) 5120); simpl; eauto.
  - intros [-> | (f & -> & Hf)].
    + simpl. repeat split. apply lookup_delete_eq.
    + rewrite handleFileSelect_empty by done. simpl.
      repeat split. apply lookup_delete_eq.
Qed.

(** C6, amended: a selected file of non-zero size whose MIME type does not
    contain "image" is rejected with the image-field error "Only images
    are allowed." and is not staged: [selectedFile] keeps its value and
    [setSelectedFile] is not called. *)
Theorem nonempty_nonimage_file_rejected
    (net : Network) (f : File) (st : FormState) :
  file_size f <> 0%N ->
  ~ contains (file_type f) (lit "image") ->
  errors (final (run net (handleFileSelect (Some f)) st)) !! "image"
    = Some {| message := "Only images are allowed." |} /\
  selectedFile (final (run net (handleFileSelect (Some f)) st)) = selectedFile st /\
  calls (run net (handleFileSelect (Some f)) st)
    = [ClearErrors "image";
       SetError "image" {| message := "Only images are allowed." |}].
Proof.
  intros Hs Ht. rewrite handleFileSelect_not_image by done. simpl.
  repeat split. apply lookup_insert_eq.
Qed.

(** C7: for a file whose MIME type contains "image", the test
    [size / 1024 > 5120] is the test [size > 5120 * 1024]; above that
    size the file is rejected with "Maximum file size is 5MB." and not
    staged; with a size in (0, 5120 * 1024] it is staged and the image
    field ends without error. *)
Theorem image_file_size_limit (net : Network) (f : File) (st : FormState) :
  contains (file_type f) (lit "image") ->
  (Qgtb (kilobytes f) 5120 = true <-> (5120 * 1024 < file_size f)%N) /\
  ((5120 * 1024 < file_size f)%N ->
   errors (final (run net (handleFileSelect (Some f)) st)) !! "image"
     = Some {| message := "Maximum file size is 5MB." |} /\
   selectedFile (final (run net (handleFileSelect (Some f)) st)) = selectedFile st /\
   calls (run net (handleFileSelect (Some f)) st)
     = [ClearErrors "image";
        SetError "image" {| message := "Maximum file size is 5MB." |}]) /\
  ((0 < file_size f <= 5120 * 1024)%N ->
   errors (final (run net (handleFileSelect (Some f)) st)) !! "image" = None /\
   selectedFile (final (run net (handleFileSelect (Some f)) st)) = Some f /\
   calls (run net (handleFileSelect (Some f)) st)
     = [ClearErrors "image"; SetSelectedFile f]).
Proof.
  intros Ht. split; [apply Qgtb_kilobytes |]. split; intros Hs.
  - rewrite handleFileSelect_too_big by done. simpl.
    repeat split. apply lookup_insert_eq.
  - rewrite handleFileSelect_staged by done. simpl.
    repeat split. apply lookup_delete_eq.
Qed.

(** *** The submit handler *)

Lemma onSubmit_no_file (net : Network) (data : Inputs) (st : FormState) :
  run net (onSubmit None data) st = (tt, st, updateTail net data).
Proof.
  unfold onSubmit, upload, updateTail. simpl.
  destruct (update net (spread data true)) as [[]|]; reflexivity.
Qed.

Lemma onSubmit_ticket_rejected
    (net : Network) (file : File) (data : Inputs) (st : FormState) :
  presign net = Rejected ->
  run net (onSubmit (Some file) data) st
  = (tt, effect (SetError "image" {| message := "" |}) st,
     GetPresignedUrl :: uploadFailedCalls).
Proof. intros H. unfold onSubmit, upload. simpl. rewrite H. reflexivity. Qed.

Lemma onSubmit_put_rejected
    (net : Network) (file : File) (data : Inputs) (st : FormState) (t : Ticket) :
  presign net = Resolved t ->
  answer net (putRequest file t) = Rejected ->
  run net (onSubmit (Some file) data) st
  = (tt, effect (SetError "image" {| message := "" |}) st,
     GetPresignedUrl :: putRequest file t :: uploadFailedCalls).
Proof.
  intros H1 H2. unfold onSubmit, upload. simpl in *. rewrite H1. simpl.
  rewrite H2. reflexivity.
Qed.

Lemma onSubmit_put_answered
    (net : Network) (file : File) (data : Inputs) (st : FormState)
    (t : Ticket) (r : Response) :
  presign net = Resolved t ->
  answer net (putRequest file t) = Resolved r ->
  run net (onSubmit (Some file) data) st
  = (tt, st,
     GetPresignedUrl :: putRequest file t
       :: updateTail net (set_image data (publicUrl t))).
Proof.
  intros H1 H2. unfold onSubmit, upload, updateTail. simpl in *. rewrite H1. simpl.
  rewrite H2. unfold publicUrl. simpl.
  destruct (update net _) as [[]|]; reflexivity.
Qed.

Lemma updateCalls_updateTail (net : Network) (data : Inputs) :
  updateCalls (updateTail net data) = [spread data true].
Proof.
  unfold updateTail. destruct (update net (spread data true)); reflexivity.
Qed.

(** X2: rejected promises do abort the submission: when the ticket request is
    rejected, or the PUT is rejected (no response obtained), the image
    field gets a message-less error, the failure notification is emitted
    and the update endpoint is not called. *)
Lemma upload_rejection_aborts
    (net : Network) (file : File) (data : Inputs) (st : FormState) :
  presign net = Rejected \/
  (exists t, presign net = Resolved t /\ answer net (putRequest file t) = Rejected) ->
  updateCalls (calls (run net (onSubmit (Some file) data) st)) = [] /\
  errors (final (run net (onSubmit (Some file) data) st)) !! "image"
    = Some {| message := "" |} /\
  ToastError "Couldn't upload your file."
    ∈ calls (run net (onSubmit (Some file) data) st).
Proof.
  intros [H | (t & H1 & H2)].
  - rewrite onSubmit_ticket_rejected by done. simpl.
    repeat split; [apply lookup_insert_eq |].
    unfold calls, uploadFailedCalls. simpl. do 2 apply list_elem_of_further.
    apply list_elem_of_here.
  - rewrite (onSubmit_put_rejected _ _ _ _ t) by done. simpl.
    repeat split; [apply lookup_insert_eq |].
    unfold calls, uploadFailedCalls. simpl. do 3 apply list_elem_of_further.
    apply list_elem_of_here.
Qed.

(** C2: whenever a submission calls the update endpoint, the image it
    sends is the image held in the form data when no file is staged, and
    the bucket base followed by "/" and the key of the ticket when a file
    is staged.  (The value is a string by type; a [File] cannot be sent.) *)
Theorem update_image_is_form_image_or_ticket_url
    (net : Network) (file : option File) (data : Inputs) (st : FormState)
    (input : UpdateInput) :
  UpdateUser input ∈ calls (run net (onSubmit file data) st) ->
  match file with
  | None => input_image input = image data
  | Some _ =>
      exists t, presign net = Resolved t /\
                input_image input = NEXT_PUBLIC_BUCKET_URL ++ lit "/" ++ key t
  end.
Proof.
  intros H. destruct file as [f|].
  - destruct (presign net) as [t|] eqn:Ht.
    + exists t. split; [done |].
      destruct (answer net (putRequest f t)) as [r|] eqn:Hr.
      * rewrite (onSubmit_put_answered _ _ _ _ t r) in H by done.
        unfold updateTail, putRequest, calls in H. simpl in H.
        destruct (update net _); calls_cases H; by injection H as ->.
      * rewrite (onSubmit_put_rejected _ _ _ _ t) in H by done.
        unfold uploadFailedCalls, putRequest, calls in H. simpl in H.
        calls_cases H.
    + rewrite onSubmit_ticket_rejected in H by done.
      unfold uploadFailedCalls, calls in H. simpl in H. calls_cases H.
  - rewrite onSubmit_no_file in H. unfold updateTail, calls in H. simpl in H.
    destruct (update net _); calls_cases H; by injection H as ->.
Qed.

(** C3: with no staged file the update endpoint is called once, with
    exactly the form's name, description and image and
    [setupCompleted: true]; a fulfilled call is followed by the success
    notification, a rejected one by the generic failure notification,
    and nothing else is called. *)
Theorem submit_without_file (net : Network) (data : Inputs) (st : FormState) :
  updateCalls (calls (run net (onSubmit None data) st))
    = [{| input_name := name data; input_description := description data;
          input_image := image data; setupCompleted := true |}] /\
  calls (run net (onSubmit None data) st)
    = UpdateUser (spread data true) ::
      match update net (spread data true) with
      | Resolved _ => [ToastSuccess "Account settings saved!"]
      | Rejected => [ToastError "Something went wrong!"]
      end.
Proof.
  rewrite onSubmit_no_file. unfold calls. simpl.
  split; [apply updateCalls_updateTail | reflexivity].
Qed.

(** C8: with no staged file, performing the submit handler on the same
    data any number of times, however the update calls settle, sends the
    same payload each time: every performance makes exactly one update
    call, with the data and [setupCompleted: true], and leaves the form
    state as it found it. *)
Theorem resubmit_same_payload
    (nets : list Network) (data : Inputs) (st : FormState) :
  selectedFile st = None ->
  Forall (fun log => updateCalls log = [spread data true])
    (fst (resubmit nets data st)) /\
  length (fst (resubmit nets data st)) = length nets /\
  snd (resubmit nets data st) = st.
Proof.
  intros Hst. induction nets as [|net nets IH]; simpl.
  - by repeat split.
  - rewrite Hst, onSubmit_no_file. unfold final, calls. simpl.
    destruct (resubmit nets data st) as [logs st'] eqn:E. simpl in *.
    destruct IH as (IH1 & IH2 & IH3). repeat split.
    + constructor; [apply updateCalls_updateTail | done].
    + by rewrite IH2.
    + done.
Qed.

(** *** Validation of the name *)

(** C5: an empty name fails validation with "Username is required.", a
    name of more than 13 code units fails it with "Username must be 13
    characters or less.", and a name of 1 to 13 code units gets no name
    error. *)
Theorem name_validation (d : Inputs) :
  (length (name d) = 0 ->
   fieldErrors (resolver d) !! "name"
     = Some {| message := "Username is required." |} /\
   parsed (resolver d) = None) /\
  (13 < length (name d) ->
   fieldErrors (resolver d) !! "name"
     = Some {| message := "Username must be 13 characters or less." |} /\
   parsed (resolver d) = None) /\
  (1 <= length (name d) <= 13 ->
   fieldErrors (resolver d) !! "name" = None).
Proof.
  unfold resolver, schema, zmin, zmax. split; [| split]; intros H.
  - rewrite H. simpl. split; [apply lookup_insert_eq | reflexivity].
  - assert ((length (name d) <? 1)%nat = false) as -> by (apply Nat.ltb_ge; lia).
    assert ((13 <? length (name d))%nat = true) as -> by (apply Nat.ltb_lt; lia).
    simpl. split; [apply lookup_insert_eq | reflexivity].
  - assert ((length (name d) <? 1)%nat = false) as -> by (apply Nat.ltb_ge; lia).
    assert ((13 <? length (name d))%nat = false) as -> by (apply Nat.ltb_ge; lia).
    simpl. destruct (isURL (image d)); simpl; [apply lookup_empty |].
    rewrite lookup_insert_ne by done. apply lookup_empty.
Qed.

(** *** The session gate *)

(** C4: when the session resolution of a request yields no session,
    [getServerSideProps] returns a redirect instruction (to the login
    destination) and hands no user record to the page. *)
Theorem no_session_redirects (ctx : Context Req Res) :
  getServerAuthSession ctx = None ->
  getServerSideProps ctx = redirect loginDestination false /\
  isRedirect (getServerSideProps ctx) = true /\
  exposedUser (getServerSideProps ctx) = None.
Proof.
  intros H. unfold getServerSideProps, authRequired. rewrite H. by repeat split.
Qed.

(** The earlier revision of the page: whenever [useAuth] gives a redirect
    destination (a non-empty string), the result is a redirect to it and
    no user record is handed to the page. *)
Lemma useAuth_redirect_hides_user
    (useAuth : Context Req Res -> AuthResult User) (ctx : Context Req Res)
    (dest : jsstring) :
  redirectDestination (useAuth ctx) = Some dest -> dest <> [] ->
  getServerSideProps_useAuth useAuth ctx = redirect dest false /\
  exposedUser (getServerSideProps_useAuth useAuth ctx) = None.
Proof.
  intros H Hd. unfold getServerSideProps_useAuth. rewrite H.
  destruct dest as [|c dest]; [done |]. by split.
Qed.

(** *** The submit control *)

Lemma truthy_is_Some {A : Type} (o : option A) : truthy o = true <-> is_Some o.
Proof.
  destruct o as [a|]; simpl; split; try done; by intros [? ?].
Qed.

Lemma thereAreErrors_spec (e : gmap string FieldError) :
  thereAreErrors e = true
  <-> is_Some (e !! "name") \/ is_Some (e !! "description") \/ is_Some (e !! "image").
Proof.
  unfold thereAreErrors. rewrite <- !truthy_is_Some.
  destruct (truthy (e !! "description")), (truthy (e !! "image")),
    (truthy (e !! "name")); simpl; intuition congruence.
Qed.

Lemma submitDisabled_spec (st : FormState) :
  submitDisabled st = true
  <-> isSubmitting st = true
      \/ is_Some (errors st !! "name")
      \/ is_Some (errors st !! "description")
      \/ is_Some (errors st !! "image").
Proof. unfold submitDisabled. by rewrite orb_true_iff, thereAreErrors_spec. Qed.

Lemma submitDisabled_false (st : FormState) :
  submitDisabled st = false ->
  isSubmitting st = false /\ errors st !! "name" = None
  /\ errors st !! "description" = None /\ errors st !! "image" = None.
Proof.
  intros H. apply not_true_iff_false in H. rewrite submitDisabled_spec in H.
  rewrite !eq_None_not_Some. destruct (isSubmitting st); intuition.
Qed.

(** No call of a handler touches [isSubmitting]: only [handleSubmit]
    itself does. *)
Lemma effect_isSubmitting (r : request) (st : FormState) :
  isSubmitting (effect r st) = isSubmitting st.
Proof. by destruct r. Qed.

Lemma run_isSubmitting {A : Type} (net : Network) (p : prog A) (st : FormState) :
  isSubmitting (final (run net p st)) = isSubmitting st.
Proof.
  revert st. induction p as [a | r k IH]; intros st; simpl; [done |].
  specialize (IH (answer net r) (effect r st)).
  destruct (run net (k (answer net r)) (effect r st)) as [[a st'] l].
  unfold final in *. simpl in *. by rewrite IH, effect_isSubmitting.
Qed.

Lemma revalidate_isSubmitting (field : string) (st : FormState) :
  isSubmitting (revalidate field st) = isSubmitting st.
Proof.
  unfold revalidate. destruct (isSubmitted st); [| done].
  by destruct (fieldErrors (resolver (values st)) !! field).
Qed.

Lemma step_serialized (p : Page) (e : event) :
  serialized p -> serialized (step p e).
Proof.
  unfold serialized. intros Hp.
  destruct e as [file | s | s | | net]; unfold step; cbv iota.
  - destruct (isSubmitting (form p)) eqn:E; [by rewrite E |].
    cbn [form inflight]. by rewrite run_isSubmitting, E.
  - destruct (isSubmitting (form p)) eqn:E; [by rewrite E |].
    cbn [form inflight]. rewrite revalidate_isSubmitting. simpl.
    by rewrite E.
  - destruct (isSubmitting (form p)) eqn:E; [by rewrite E |].
    cbn [form inflight]. rewrite revalidate_isSubmitting. simpl.
    by rewrite E.
  - destruct (submitDisabled (form p)) eqn:E; [done |].
    apply submitDisabled_false in E as [E _]. rewrite E in Hp.
    unfold beginSubmit. destruct (parsed (resolver (values (form p)))); simpl.
    + rewrite length_app, Hp. reflexivity.
    + by rewrite E.
  - unfold settle. destruct (inflight p) as [|[file data] rest] eqn:E; [by rewrite E |].
    simpl in *. destruct (isSubmitting (form p)); [lia | discriminate].
Qed.

Lemma reachable_serialized (defaults : Inputs) (p : Page) :
  reachable defaults p -> serialized p.
Proof.
  intros [evs ->]. unfold exec.
  induction evs as [|e evs IH] using rev_ind; [reflexivity |].
  rewrite foldl_app. simpl. by apply step_serialized.
Qed.

(** Only a submit request delivered through an enabled control starts a
    submission. *)
Lemma startsSubmission_enabled (p : Page) (e : event) :
  startsSubmission p e ->
  e = SubmitRequested /\ submitDisabled (form p) = false.
Proof.
  unfold startsSubmission. destruct e as [file | s | s | | net]; simpl.
  - destruct (isSubmitting (form p)); simpl; lia.
  - destruct (isSubmitting (form p)); simpl; lia.
  - destruct (isSubmitting (form p)); simpl; lia.
  - destruct (submitDisabled (form p)); [lia | done].
  - unfold settle. destruct (inflight p) as [|[file data] rest] eqn:E;
      simpl; rewrite ?E; simpl; lia.
Qed.

(** C9: in every reachable page state the submit control is disabled
    exactly when a submission is in flight or one of the fields name,
    description, image has an error; at most one submission is
    outstanding, and an event starts a submission only when none is
    outstanding and none of the three fields has an error. *)
Theorem submit_control_gate (defaults : Inputs) (p : Page) :
  reachable defaults p ->
  (submitDisabled (form p) = true
   <-> isSubmitting (form p) = true
       \/ is_Some (errors (form p) !! "name")
       \/ is_Some (errors (form p) !! "description")
       \/ is_Some (errors (form p) !! "image")) /\
  length (inflight p) <= 1 /\
  (isSubmitting (form p) = true <-> inflight p <> []) /\
  (forall e : event,
      startsSubmission p e ->
      inflight p = [] /\
      isSubmitting (form p) = false /\
      errors (form p) !! "name" = None /\
      errors (form p) !! "description" = None /\
      errors (form p) !! "image" = None).
Proof.
  intros Hp. apply reachable_serialized in Hp. unfold serialized in Hp.
  split; [apply submitDisabled_spec |]. split; [| split].
  - destruct (isSubmitting (form p)); lia.
  - destruct (isSubmitting (form p)), (inflight p); simpl in *;
      split; intros; done || lia.
  - intros e He. apply startsSubmission_enabled in He as [_ He].
    apply submitDisabled_false in He as (E & ? & ? & ?).
    rewrite E in Hp. destruct (inflight p); [done | discriminate].
Qed.

(** *** Further properties of the submit handler *)

(** The four ways through [onSubmit]. *)
Lemma onSubmit_cases (net : Network) (file : option File) (data : Inputs) (st : FormState) :
  (file = None /\
   run net (onSubmit file data) st = (tt, st, updateTail net data)) \/
  (exists f, file = Some f /\ presign net = Rejected /\
     run net (onSubmit file data) st
     = (tt, effect (SetError "image" {| message := "" |}) st,
        GetPresignedUrl :: uploadFailedCalls)) \/
  (exists f t, file = Some f /\ presign net = Resolved t /\
     answer net (putRequest f t) = Rejected /\
     run net (onSubmit file data) st
     = (tt, effect (SetError "image" {| message := "" |}) st,
        GetPresignedUrl :: putRequest f t :: uploadFailedCalls)) \/
  (exists f t r, file = Some f /\ presign net = Resolved t /\
     answer net (putRequest f t) = Resolved r /\
     run net (onSubmit file data) st
     = (tt, st,
        GetPresignedUrl :: putRequest f t
          :: updateTail net (set_image data (publicUrl t)))).
Proof.
  destruct file as [f|].
  - right. destruct (presign net) as [t|] eqn:Ht.
    + right. destruct (answer net (putRequest f t)) as [r|] eqn:Hr.
      * right. exists f, t, r. repeat split; try done.
        by apply onSubmit_put_answered with r.
      * left. exists f, t. repeat split; try done.
        by apply onSubmit_put_rejected.
    + left. exists f. repeat split; try done. by apply onSubmit_ticket_rejected.
  - left. split; [done | apply onSubmit_no_file].
Qed.

(** X1: with a staged file, a ticket and a fulfilled PUT, the handler
    requests the ticket, PUTs the file to the ticket's URL with the file's
    type as Content-Type and the file as body, then calls the update
    endpoint with the unchanged name and description and the derived
    image URL, and ends with one notification; the form is untouched. *)
Theorem staged_upload_path
    (net : Network) (f : File) (data : Inputs) (st : FormState)
    (t : Ticket) (r : Response) :
  presign net = Resolved t ->
  put net (url t)
    {| method := "PUT"; headers := [("Content-Type", file_type f)]; body := f |}
    = Resolved r ->
  final (run net (onSubmit (Some f) data) st) = st /\
  calls (run net (onSubmit (Some f) data) st)
  = [GetPresignedUrl;
     Fetch (url t)
       {| method := "PUT"; headers := [("Content-Type", file_type f)]; body := f |};
     UpdateUser {| input_name := name data; input_description := description data;
                   input_image := NEXT_PUBLIC_BUCKET_URL ++ lit "/" ++ key t;
                   setupCompleted := true |};
     match update net {| input_name := name data;
                         input_description := description data;
                         input_image := NEXT_PUBLIC_BUCKET_URL ++ lit "/" ++ key t;
                         setupCompleted := true |} with
     | Resolved _ => ToastSuccess "Account settings saved!"
     | Rejected => ToastError "Something went wrong!"
     end].
Proof.
  intros Ht Hr. rewrite (onSubmit_put_answered net f data st t r Ht Hr).
  split; [reflexivity |]. unfold calls, updateTail, putRequest, publicUrl, spread.
  simpl. by destruct (update net _).
Qed.

(** X3: [onSubmit] changes nothing of the form but the error of the image
    field: the values, the staged file and the submission flags are as
    before, and so is the error entry of every other field. *)
Theorem onSubmit_touches_only_image_error
    (net : Network) (file : option File) (data : Inputs) (st : FormState) :
  values (final (run net (onSubmit file data) st)) = values st /\
  selectedFile (final (run net (onSubmit file data) st)) = selectedFile st /\
  isSubmitting (final (run net (onSubmit file data) st)) = isSubmitting st /\
  isSubmitted (final (run net (onSubmit file data) st)) = isSubmitted st /\
  (forall field : string,
      field <> "image" ->
      errors (final (run net (onSubmit file data) st)) !! field = errors st !! field).
Proof.
  destruct (onSubmit_cases net file data st)
    as [[_ ->] | [(f & _ & _ & ->) | [(f & t & _ & _ & _ & ->) | (f & t & r & _ & _ & _ & ->)]]];
    unfold final; simpl; repeat split; try done;
    intros field Hf; by rewrite lookup_insert_ne.
Qed.

(** X10: one run of [onSubmit] is a single attempt: at most one ticket
    request, at most one PUT, at most one call of the update endpoint, and
    exactly one notification; a ticket is requested exactly when a file is
    staged. *)
Theorem onSubmit_single_attempt
    (net : Network) (file : option File) (data : Inputs) (st : FormState) :
  count isTicketRequest (calls (run net (onSubmit file data) st))
    = (match file with Some _ => 1 | None => 0 end) /\
  count isPut (calls (run net (onSubmit file data) st)) <= 1 /\
  count isUpdate (calls (run net (onSubmit file data) st)) <= 1 /\
  count isToast (calls (run net (onSubmit file data) st)) = 1.
Proof.
  destruct (onSubmit_cases net file data st)
    as [[-> ->] | [(f & -> & _ & ->) | [(f & t & -> & _ & _ & ->) | (f & t & r & -> & _ & _ & ->)]]];
    unfold calls, count, updateTail, uploadFailedCalls, putRequest; simpl;
    try destruct (update net _); simpl; repeat split; lia.
Qed.

(** X11: the success notification is emitted exactly when the update
    endpoint was called and its call was fulfilled. *)
Theorem success_toast_iff_update_fulfilled
    (net : Network) (file : option File) (data : Inputs) (st : FormState) :
  (exists msg, ToastSuccess msg ∈ calls (run net (onSubmit file data) st))
  <-> (exists input, UpdateUser input ∈ calls (run net (onSubmit file data) st)
                     /\ update net input = Resolved tt).
Proof.
  destruct (onSubmit_cases net file data st)
    as [[_ ->] | [(f & _ & _ & ->) | [(f & t & _ & _ & _ & ->) | (f & t & r & _ & _ & _ & ->)]]];
    unfold calls, updateTail, uploadFailedCalls, putRequest; simpl.
  - destruct (update net (spread data true)) as [[]|] eqn:E; split.
    + intros _. exists (spread data true). split; [apply list_elem_of_here | done].
    + intros _. exists "Account settings saved!".
      apply list_elem_of_further, list_elem_of_here.
    + intros [msg H]. calls_cases H.
    + intros (input & H & Hu). calls_cases H. injection H as ->. congruence.
  - split.
    + intros [msg H]. calls_cases H.
    + intros (input & H & _). calls_cases H.
  - split.
    + intros [msg H]. calls_cases H.
    + intros (input & H & _). calls_cases H.
  - destruct (update net (spread (set_image data (publicUrl t)) true)) as [[]|] eqn:E;
      split.
    + intros _. exists (spread (set_image data (publicUrl t)) true).
      split; [do 2 apply list_elem_of_further; apply list_elem_of_here | done].
    + intros _. exists "Account settings saved!".
      do 3 apply list_elem_of_further. apply list_elem_of_here.
    + intros [msg H]. calls_cases H.
    + intros (input & H & Hu). calls_cases H. injection H as ->. congruence.
Qed.

(** X12: whatever path a submission takes, an update call it makes carries
    the name and the description of the form data unchanged and
    [setupCompleted: true]. *)
Theorem update_forwards_name_and_description
    (net : Network) (file : option File) (data : Inputs) (st : FormState)
    (input : UpdateInput) :
  UpdateUser input ∈ calls (run net (onSubmit file data) st) ->
  input_name input = name data /\
  input_description input = description data /\
  setupCompleted input = true.
Proof.
  intros H.
  destruct (onSubmit_cases net file data st)
    as [[_ E] | [(f & _ & _ & E) | [(f & t & _ & _ & _ & E) | (f & t & r & _ & _ & _ & E)]]];
    rewrite E in H; unfold calls, updateTail, uploadFailedCalls, putRequest in H;
    simpl in H; try destruct (update net _); calls_cases H;
    by injection H as ->.
Qed.

(** X14: after an aborted upload the image field carries an error, so the
    submit control is disabled although no submission is in flight any
    more. *)
Theorem upload_failure_disables_submit
    (net : Network) (f : File) (data : Inputs) (st : FormState) :
  presign net = Rejected \/
  (exists t, presign net = Resolved t /\ answer net (putRequest f t) = Rejected) ->
  thereAreErrors (errors (final (run net (onSubmit (Some f) data) st))) = true /\
  submitDisabled
    (with_submitting false (final (run net (onSubmit (Some f) data) st))) = true.
Proof.
  intros H.
  assert (errors (final (run net (onSubmit (Some f) data) st)) !! "image"
          = Some {| message := "" |}) as E.
  { destruct H as [H | (t & H1 & H2)].
    - rewrite onSubmit_ticket_rejected by done. apply lookup_insert_eq.
    - rewrite (onSubmit_put_rejected _ _ _ _ t) by done. apply lookup_insert_eq. }
  assert (thereAreErrors (errors (final (run net (onSubmit (Some f) data) st))) = true)
    as E'.
  { unfold thereAreErrors. rewrite E. cbn [truthy]. by rewrite orb_true_r. }
  split; [exact E' |]. unfold submitDisabled. simpl. exact E'.
Qed.

(** *** Further properties of the file-select handler *)

Lemma acceptable_dec (f : File) :
  (file_size f =? 0)%N = false ->
  (indexOf (file_type f) (lit "image") =? -1)%Z = false ->
  Qgtb (kilobytes f) 5120 = false ->
  acceptable f.
Proof.
  intros Hs Ht Hq. split; [by apply indexOf_eqb_found |].
  apply N.eqb_neq in Hs. apply not_true_iff_false in Hq.
  rewrite Qgtb_kilobytes in Hq. lia.
Qed.

(** Which calls [handleFileSelect] makes depends on the file only, and
    its result is the effect of these calls on the form. *)
Lemma handleFileSelect_shape (file : option File) :
  exists l : list request,
    (l = [ClearErrors "image"] \/
     (exists msg, l = [ClearErrors "image"; SetError "image" {| message := msg |}]) \/
     (exists f, file = Some f /\ acceptable f /\
                l = [ClearErrors "image"; SetSelectedFile f])) /\
    forall (net : Network) (st : FormState),
      run net (handleFileSelect file) st = (tt, applyCalls st l, l).
Proof.
  destruct file as [f|]; [| exists [ClearErrors "image"]; split; [by left | done]].
  unfold handleFileSelect.
  destruct (file_size f =? 0)%N eqn:Hs;
    [exists [ClearErrors "image"]; split; [by left | done] |].
  destruct (indexOf (file_type f) (lit "image") =? -1)%Z eqn:Ht.
  { eexists. split; [right; left; by eexists |]. done. }
  destruct (Qgtb (kilobytes f) 5120) eqn:Hq.
  { eexists. split; [right; left; by eexists |]. done. }
  exists [ClearErrors "image"; SetSelectedFile f]. split; [| done].
  right. right. exists f. repeat split; by apply acceptable_dec.
Qed.

(** X4: [handleFileSelect] acts on the form only: it makes no network call
    and shows no notification, its result does not depend on the network,
    and of the form it changes nothing but the error of the image field and
    the staged file. *)
Theorem handleFileSelect_is_local
    (net net' : Network) (file : option File) (st : FormState) :
  Forall (fun r => isFormCall r = true) (calls (run net (handleFileSelect file) st)) /\
  run net (handleFileSelect file) st = run net' (handleFileSelect file) st /\
  values (final (run net (handleFileSelect file) st)) = values st /\
  isSubmitting (final (run net (handleFileSelect file) st)) = isSubmitting st /\
  isSubmitted (final (run net (handleFileSelect file) st)) = isSubmitted st /\
  (forall field : string,
      field <> "image" ->
      errors (final (run net (handleFileSelect file) st)) !! field
      = errors st !! field).
Proof.
  destruct (handleFileSelect_shape file) as (l & Hl & E).
  rewrite !E. unfold final, calls. simpl.
  destruct Hl as [-> | [[msg ->] | (f & _ & _ & ->)]]; simpl;
    (split; [by repeat constructor |]); repeat split; try done;
    intros field Hfield; rewrite ?lookup_insert_ne by done;
    by rewrite ?lookup_delete_ne.
Qed.

(** X5: selecting the same file twice in a row leaves the form as selecting
    it once does. *)
Theorem handleFileSelect_idempotent
    (net : Network) (file : option File) (st : FormState) :
  final (run net (handleFileSelect file)
           (final (run net (handleFileSelect file) st)))
  = final (run net (handleFileSelect file) st).
Proof.
  destruct (handleFileSelect_shape file) as (l & Hl & E).
  rewrite !E. unfold final. simpl.
  destruct Hl as [-> | [[msg ->] | (f & _ & _ & ->)]]; unfold applyCalls; simpl.
  - by rewrite delete_delete_eq.
  - by rewrite delete_insert_eq, delete_delete_eq.
  - by rewrite delete_delete_eq.
Qed.

(** *** Further properties of the resolver *)

Lemma schema_nil (d : Inputs) :
  schema d = [] <-> 1 <= length (name d) <= 13 /\ isURL (image d) = true.
Proof.
  unfold schema, zmin, zmax.
  destruct (Nat.ltb_spec (length (name d)) 1), (Nat.ltb_spec 13 (length (name d))),
    (isURL (image d)); simpl; split; try done; try lia; intros [? ?]; done || lia.
Qed.

Lemma parsed_valid (d d' : Inputs) :
  parsed (resolver d) = Some d' ->
  d' = d /\ 1 <= length (name d) <= 13 /\ isURL (image d) = true.
Proof.
  unfold resolver. destruct (schema d) eqn:E; [| done].
  intros [= <-]. split; [done |]. by apply schema_nil.
Qed.

(** X8: the resolver accepts the form data exactly when the name has 1 to
    13 code units and the image is a URL; the description is not
    constrained, and accepted data are handed on unchanged. *)
Theorem resolver_accepts_iff (d d' : Inputs) :
  parsed (resolver d) = Some d'
  <-> d' = d /\ 1 <= length (name d) <= 13 /\ isURL (image d) = true.
Proof.
  split; [apply parsed_valid |].
  intros (-> & Hn & Hu). unfold resolver.
  destruct (schema d) eqn:E; [done |].
  assert (schema d = []) as E' by (by apply schema_nil). congruence.
Qed.

(** X9: the errors object of the resolver is empty exactly when the data
    are accepted; it has an image entry exactly when the image is not a
    URL, and never an entry for the description or any field other than
    name and image. *)
Theorem resolver_error_fields (d : Inputs) :
  (fieldErrors (resolver d) = ∅ <-> parsed (resolver d) = Some d) /\
  (is_Some (fieldErrors (resolver d) !! "image") <-> isURL (image d) = false) /\
  (forall field : string,
      field <> "name" -> field <> "image" ->
      fieldErrors (resolver d) !! field = None).
Proof.
  unfold resolver, schema, zmin, zmax.
  destruct (length (name d) <? 1)%nat, (13 <? length (name d))%nat,
    (isURL (image d)); simpl; (split; [| split]);
    try (split; [intros H; exfalso; revert H; apply insert_non_empty | done]);
    try (split; [done | done]);
    try (intros field H1 H2; rewrite ?lookup_insert_ne by done; apply lookup_empty);
    try (split; [intros [? H]; rewrite ?lookup_insert_ne, lookup_empty in H by done;
                 discriminate H | done]);
    try (split; [done | intros _; rewrite ?lookup_insert_ne by done;
                        rewrite lookup_insert_eq; by eexists]).
Qed.

(** *** Further properties of the page *)

Lemma onSubmit_selectedFile
    (net : Network) (file : option File) (data : Inputs) (st : FormState) :
  selectedFile (final (run net (onSubmit file data) st)) = selectedFile st.
Proof.
  destruct (onSubmit_cases net file data st)
    as [[_ ->] | [(f & _ & _ & ->) | [(f & t & _ & _ & _ & ->) | (f & t & r & _ & _ & _ & ->)]]];
    reflexivity.
Qed.

Lemma revalidate_selectedFile (field : string) (st : FormState) :
  selectedFile (revalidate field st) = selectedFile st.
Proof.
  unfold revalidate. destruct (isSubmitted st); [| done].
  by destruct (fieldErrors (resolver (values st)) !! field).
Qed.

(** What a file-select event does to the staged file: it stays, or the
    chosen file, an acceptable one, replaces it. *)
Lemma handleFileSelect_selectedFile
    (net : Network) (file : option File) (st : FormState) :
  selectedFile (final (run net (handleFileSelect file) st)) = selectedFile st \/
  (exists f, file = Some f /\ acceptable f /\
             selectedFile (final (run net (handleFileSelect file) st)) = Some f).
Proof.
  destruct (handleFileSelect_shape file) as (l & Hl & E). rewrite E.
  destruct Hl as [-> | [[msg ->] | (f & Hf & Ha & ->)]];
    [by left | by left | right; by exists f].
Qed.

Lemma handleFileSelect_okCalls
    (net : Network) (file : option File) (st : FormState) :
  Forall okCall (calls (run net (handleFileSelect file) st)).
Proof.
  destruct (handleFileSelect_shape file) as (l & Hl & E). rewrite E.
  destruct Hl as [-> | [[msg ->] | (f & Hf & Ha & ->)]];
    by repeat (apply List.Forall_cons || apply List.Forall_nil).
Qed.

(** The calls of a submission started on accepted data with an acceptable
    file, if any. *)
Lemma onSubmit_okCalls
    (net : Network) (file : option File) (data : Inputs) (st : FormState) :
  okSubmission (file, data) ->
  Forall okCall (calls (run net (onSubmit file data) st)).
Proof.
  intros [Hfile Hdata]. simpl in *.
  apply parsed_valid in Hdata as (_ & Hn & _).
  destruct (onSubmit_cases net file data st)
    as [[_ ->] | [(f & _ & _ & ->) | [(f & t & Hf & _ & _ & ->) | (f & t & r & Hf & _ & _ & ->)]]];
    unfold calls, updateTail, uploadFailedCalls, putRequest; simpl;
    try destruct (update net _);
    repeat (apply List.Forall_cons || apply List.Forall_nil); simpl; try done;
    split; try done; by apply Hfile.
Qed.

Lemma step_wellFormed (p : Page) (e : event) :
  wellFormed p -> wellFormed (step p e).
Proof.
  intros H. pose proof H as (Hs & Hi & Hh).
  destruct e as [file | s | s | | net]; unfold step; cbv iota.
  - destruct (isSubmitting (form p)); [done |].
    split; [| split]; cbn [form inflight history]; [| done |].
    + intros f Hf.
      destruct (handleFileSelect_selectedFile offline file (form p))
        as [E | (f' & _ & Ha & E)]; rewrite E in Hf; [by apply Hs | congruence].
    + apply Forall_app. split; [done | apply handleFileSelect_okCalls].
  - destruct (isSubmitting (form p)); [done |].
    split; [| done]. cbn [form]. by rewrite revalidate_selectedFile.
  - destruct (isSubmitting (form p)); [done |].
    split; [| done]. cbn [form]. by rewrite revalidate_selectedFile.
  - destruct (submitDisabled (form p)); [done |]. unfold beginSubmit.
    destruct (parsed (resolver (values (form p)))) as [data|] eqn:E;
      (split; [done | split; [| done]]); cbn [inflight]; [| done].
    apply Forall_app. split; [done |]. constructor; [| done].
    apply parsed_valid in E as E'. destruct E' as (-> & _).
    split; [apply Hs | exact E].
  - unfold settle. destruct (inflight p) as [|[file data] rest] eqn:E; [exact H |].
    apply Forall_cons in Hi as [Hx Hi].
    split; [| split]; cbn [form inflight history]; [| done |].
    + simpl. rewrite onSubmit_selectedFile. apply Hs.
    + apply Forall_app. split; [done | by apply onSubmit_okCalls].
Qed.

Lemma reachable_wellFormed (defaults : Inputs) (p : Page) :
  reachable defaults p -> wellFormed p.
Proof.
  intros [evs ->]. unfold exec.
  induction evs as [|e evs IH] using rev_ind.
  - by repeat split.
  - rewrite foldl_app. simpl. by apply step_wellFormed.
Qed.

(** X6: on the page, the staged file is always one the file-select handler
    let through, and so is every file that was ever PUT: its type contains
    "image" and its size is in (0, 5120 * 1024] bytes. *)
Theorem only_acceptable_files_are_staged_and_uploaded
    (defaults : Inputs) (p : Page) :
  reachable defaults p ->
  (forall f, selectedFile (form p) = Some f -> acceptable f) /\
  (forall target init,
      Fetch target init ∈ history p -> method init = "PUT" /\ acceptable (body init)).
Proof.
  intros Hp. apply reachable_wellFormed in Hp as (Hs & _ & Hh).
  split; [exact Hs |]. intros target init H.
  rewrite Forall_forall in Hh. exact (Hh _ H).
Qed.

(** X13: on the page, every call of the update endpoint carries a name of
    1 to 13 code units and [setupCompleted: true]: no submission gets past
    the resolver with an invalid name. *)
Theorem update_calls_carry_valid_names
    (defaults : Inputs) (p : Page) (input : UpdateInput) :
  reachable defaults p ->
  UpdateUser input ∈ history p ->
  1 <= length (input_name input) <= 13 /\ setupCompleted input = true.
Proof.
  intros Hp H. apply reachable_wellFormed in Hp as (_ & _ & Hh).
  rewrite Forall_forall in Hh. exact (Hh _ H).
Qed.

Lemma step_keeps_staged (p : Page) (e : event) :
  is_Some (selectedFile (form p)) -> is_Some (selectedFile (form (step p e))).
Proof.
  intros Hs. destruct e as [file | s | s | | net]; unfold step; cbv iota.
  - destruct (isSubmitting (form p)); [done |]. cbn [form].
    destruct (handleFileSelect_selectedFile offline file (form p))
      as [E | (f' & _ & _ & E)]; rewrite E; [done | by eexists].
  - destruct (isSubmitting (form p)); [done |]. cbn [form].
    by rewrite revalidate_selectedFile.
  - destruct (isSubmitting (form p)); [done |]. cbn [form].
    by rewrite revalidate_selectedFile.
  - destruct (submitDisabled (form p)); [done |]. unfold beginSubmit.
    by destruct (parsed (resolver (values (form p)))).
  - unfold settle. destruct (inflight p) as [|[file data] rest]; [done |].
    cbn [form]. simpl. by rewrite onSubmit_selectedFile.
Qed.

(** X7: once a file is staged, no event unstages it: neither a later
    selection that is rejected or empty, nor a submission, successful or
    not, resets [selectedFile]; every later submission uploads a file
    again. *)
Theorem staged_file_is_never_unstaged (p : Page) (evs : list event) :
  is_Some (selectedFile (form p)) ->
  is_Some (selectedFile (form (exec evs p))).
Proof.
  revert p. induction evs as [|e evs IH]; intros p Hs; [done |].
  simpl. apply IH. by apply step_keeps_staged.
Qed.

(** *** The earlier revision of the session gate *)

(** X15: the earlier revision redirects exactly when [useAuth] gives a
    non-empty redirect destination, and then to that destination, not
    permanently, and without a user record; with no destination, or an
    empty one, it hands [useAuth]'s user to the page as it is. *)
Theorem useAuth_redirects_iff_destination
    (useAuth : Context Req Res -> AuthResult User) (ctx : Context Req Res) :
  (forall dest,
      redirectDestination (useAuth ctx) = Some dest -> dest <> [] ->
      getServerSideProps_useAuth useAuth ctx = redirect dest false) /\
  (redirectDestination (useAuth ctx) = None \/
   redirectDestination (useAuth ctx) = Some [] ->
   getServerSideProps_useAuth useAuth ctx = props (user (useAuth ctx))) /\
  (isRedirect (getServerSideProps_useAuth useAuth ctx) = true ->
   exposedUser (getServerSideProps_useAuth useAuth ctx) = None).
Proof.
  unfold getServerSideProps_useAuth.
  destruct (redirectDestination (useAuth ctx)) as [[|c dest]|]; simpl;
    (split; [| split]).
  all: try (intros dest' Hd Hne; by simplify_eq).
  all: try (intros [H | H]; by simplify_eq).
  all: intros H; by simplify_eq.
Qed.

(** *** Retrying after a failed upload *)

Lemma thereAreErrors_image_cleared (e : gmap string FieldError) (x : FieldError) :
  thereAreErrors e = false ->
  thereAreErrors (delete "image" (<["image" := x]> e)) = false.
Proof.
  unfold thereAreErrors.
  rewrite lookup_delete_eq, !lookup_delete_ne, !lookup_insert_ne by done.
  destruct (e !! "description"), (e !! "name"), (e !! "image"); simpl; done.
Qed.

(** X16: after an aborted upload on a form that had no field error, any
    file-select event that does not itself reject a file (no file chosen,
    a zero-byte file, or an acceptable file) clears the image error, and
    the submit control is enabled again. *)
Theorem file_select_after_failed_upload_reenables_submit
    (net net' : Network) (f : File) (data : Inputs) (st : FormState)
    (file : option File) :
  thereAreErrors (errors st) = false ->
  presign net = Rejected \/
  (exists t, presign net = Resolved t /\ answer net (putRequest f t) = Rejected) ->
  file = None \/ (exists g, file = Some g /\ (file_size g = 0%N \/ acceptable g)) ->
  submitDisabled
    (with_submitting false
       (final (run net' (handleFileSelect file)
                 (final (run net (onSubmit (Some f) data) st))))) = false.
Proof.
  intros He Hfail Hfile.
  assert (final (run net (onSubmit (Some f) data) st)
          = effect (SetError "image" {| message := "" |}) st) as ->.
  { destruct Hfail as [H | (t & H1 & H2)].
    - by rewrite onSubmit_ticket_rejected.
    - by rewrite (onSubmit_put_rejected _ _ _ _ t). }
  destruct Hfile as [-> | (g & -> & [Hg | [Ht Hs]])].
  - unfold submitDisabled. simpl. by apply thereAreErrors_image_cleared.
  - rewrite handleFileSelect_empty by done. unfold submitDisabled. simpl.
    by apply thereAreErrors_image_cleared.
  - rewrite handleFileSelect_staged by done. unfold submitDisabled. simpl.
    by apply thereAreErrors_image_cleared.
Qed.

(** X17: while a file is staged, every performance of the submit handler
    requests a ticket again, and the file stays staged afterwards: a
    resubmission uploads the file anew, whatever became of the earlier
    attempts. *)
Theorem resubmit_with_file_uploads_again
    (nets : list Network) (f : File) (data : Inputs) (st : FormState) :
  selectedFile st = Some f ->
  Forall (fun log => count isTicketRequest log = 1) (fst (resubmit nets data st)) /\
  length (fst (resubmit nets data st)) = length nets /\
  selectedFile (snd (resubmit nets data st)) = Some f.
Proof.
  revert st. induction nets as [|net nets IH]; intros st Hst.
  - by repeat split.
  - cbn [resubmit]. rewrite Hst.
    specialize (IH (final (run net (onSubmit (Some f) data) st))).
    rewrite onSubmit_selectedFile in IH. specialize (IH Hst).
    destruct (resubmit nets data (final (run net (onSubmit (Some f) data) st)))
      as [logs st'] eqn:E. cbn [fst snd length] in *.
    destruct IH as (IH1 & IH2 & IH3). repeat split; [| by rewrite IH2 | done].
    constructor; [| done].
    destruct (onSubmit_cases net (Some f) data st)
      as [[? _] | [(g & _ & _ & ->) | [(g & t & _ & _ & _ & ->) | (g & t & r & _ & _ & _ & ->)]]];
      [done | | |];
      unfold calls, count, updateTail, uploadFailedCalls, putRequest; simpl;
      try destruct (update net _); reflexivity.
Qed.

End BookApp.

(** ** Concrete instances of the properties *)

Lemma plain_text_not_image : ~ contains (lit "text/plain") (lit "image").
Proof. apply indexOf_not_found. reflexivity. Defined.

Lemma jpeg_is_image : contains (lit "image/jpeg") (lit "image").
Proof. by exists [], (lit "/jpeg"). Defined.

Lemma file_select_clears_first_and_skips_empty_witness :
  calls (run offline (handleFileSelect (Some plainTextEmpty)) (initialForm alice))
    = [ClearErrors "image"] /\
  selectedFile (final (run offline (handleFileSelect (Some plainTextEmpty)) (initialForm alice)))
    = None.
Proof.
  destruct (file_select_clears_first_and_skips_empty offline (Some plainTextEmpty)
              (initialForm alice)) as [_ H].
  destruct H as (H1 & _ & _ & H2).
  - right. exists plainTextEmpty. split; reflexivity.
  - split; [exact H1 | exact H2].
Defined.

(** C6 as stated fails on an empty file: a zero-byte file whose type does
    not contain "image" gets no error at all. *)
Lemma empty_nonimage_file_not_rejected :
  ~ contains (file_type plainTextEmpty) (lit "image") /\
  errors (final (run offline (handleFileSelect (Some plainTextEmpty)) (initialForm alice)))
    !! "image" = None /\
  errors (final (run offline (handleFileSelect (Some plainTextEmpty)) (initialForm alice)))
    !! "image" <> Some {| message := "Only images are allowed." |}.
Proof.
  split; [exact plain_text_not_image |].
  assert (errors (final (run offline (handleFileSelect (Some plainTextEmpty))
                           (initialForm alice))) !! "image" = None) as H
    by apply lookup_delete_eq.
  split; [exact H | rewrite H; discriminate].
Qed.

Lemma nonempty_nonimage_file_rejected_witness :
  errors (final (run offline (handleFileSelect (Some plainText)) (initialForm alice)))
    !! "image" = Some {| message := "Only images are allowed." |}.
Proof.
  apply (nonempty_nonimage_file_rejected offline plainText (initialForm alice)).
  - discriminate.
  - exact plain_text_not_image.
Defined.

Lemma image_file_size_limit_witness :
  selectedFile (final (run offline (handleFileSelect (Some jpeg2MB)) (initialForm alice)))
    = Some jpeg2MB /\
  errors (final (run offline (handleFileSelect (Some jpeg6MB)) (initialForm alice)))
    !! "image" = Some {| message := "Maximum file size is 5MB." |}.
Proof.
  split.
  - destruct (image_file_size_limit offline jpeg2MB (initialForm alice) jpeg_is_image)
      as (_ & _ & H).
    apply H. simpl. lia.
  - destruct (image_file_size_limit offline jpeg6MB (initialForm alice) jpeg_is_image)
      as (_ & H & _).
    apply H. simpl. lia.
Defined.

(** C1 fails on an HTTP error answer to the PUT: [fetch] fulfils its
    promise, the handler does not look at the response, and the submission
    goes on to the update endpoint with the derived URL; no error is set
    and the success notification is shown. *)
Lemma put_http_error_still_updates :
  ok {| status := 403 |} = false /\
  calls (run putForbidden (onSubmit bucket (Some jpeg2MB) alice) (initialForm alice))
    = [GetPresignedUrl;
       Fetch (url ticket1)
         {| method := "PUT"; headers := [("Content-Type", lit "image/jpeg")];
            body := jpeg2MB |};
       UpdateUser {| input_name := lit "Alice"; input_description := lit "Hi";
                     input_image := lit "https://bucket.example.com/k1";
                     setupCompleted := true |};
       ToastSuccess "Account settings saved!"] /\
  errors (final (run putForbidden (onSubmit bucket (Some jpeg2MB) alice) (initialForm alice)))
    !! "image" = None.
Proof. repeat split. Qed.

Lemma update_image_is_form_image_or_ticket_url_witness :
  exists t, presign healthy = Resolved t /\
            lit "https://bucket.example.com/k1" = bucket ++ lit "/" ++ key t.
Proof.
  apply (update_image_is_form_image_or_ticket_url bucket healthy (Some jpeg2MB) alice
           (initialForm alice)
           {| input_name := lit "Alice"; input_description := lit "Hi";
              input_image := lit "https://bucket.example.com/k1";
              setupCompleted := true |}).
  vm_compute. do 2 apply list_elem_of_further. apply list_elem_of_here.
Defined.

Lemma resubmit_same_payload_witness :
  Forall (fun log => updateCalls log = [spread alice true])
    (fst (resubmit bucket [healthy; updateDown; healthy] alice (initialForm alice))) /\
  length (fst (resubmit bucket [healthy; updateDown; healthy] alice (initialForm alice))) = 3 /\
  snd (resubmit bucket [healthy; updateDown; healthy] alice (initialForm alice))
    = initialForm alice.
Proof.
  apply (resubmit_same_payload bucket [healthy; updateDown; healthy] alice
           (initialForm alice)).
  reflexivity.
Defined.

Lemma name_validation_witness :
  fieldErrors (resolver anyURL blank)
    !! "name" = Some {| message := "Username is required." |} /\
  fieldErrors (resolver anyURL longName)
    !! "name" = Some {| message := "Username must be 13 characters or less." |} /\
  fieldErrors (resolver anyURL alice) !! "name" = None.
Proof.
  split; [| split].
  - apply (name_validation anyURL
             blank).
    reflexivity.
  - apply (name_validation anyURL
             longName).
    simpl. lia.
  - apply (name_validation anyURL alice). simpl. lia.
Defined.

Lemma no_session_redirects_witness :
  isRedirect (getServerSideProps unit unit unit unit unit noSession tt (lit "/login")
                (fun _ => tt) (mkContext tt tt)) = true /\
  exposedUser (getServerSideProps unit unit unit unit unit noSession tt (lit "/login")
                 (fun _ => tt) (mkContext tt tt)) = None.
Proof.
  destruct (no_session_redirects unit unit unit unit unit noSession tt (lit "/login")
              (fun _ => tt) (mkContext tt tt)) as (_ & H1 & H2).
  - reflexivity.
  - split; [exact H1 | exact H2].
Defined.

Lemma submit_control_gate_witness :
  length (inflight (initialPage alice)) <= 1 /\
  isSubmitting (form (initialPage alice)) = false /\
  errors (form (initialPage alice)) !! "image" = None.
Proof.
  destruct (submit_control_gate bucket anyURL alice (initialPage alice))
    as (_ & H1 & _ & H2).
  - by exists [].
  - split; [exact H1 |].
    destruct (H2 SubmitRequested) as (_ & H3 & _ & _ & H4).
    + unfold startsSubmission. vm_compute. lia.
    + split; [exact H3 | exact H4].
Defined.

(** ** The scenarios of the specification, run on the page *)

(** Alice submits her unchanged settings with no new file. *)
Example scenario_submit_without_file :
  history (exec bucket anyURL [SubmitRequested; Settled healthy] (initialPage alice))
  = [UpdateUser {| input_name := lit "Alice"; input_description := lit "Hi";
                   input_image := lit "https://example.com/a.png";
                   setupCompleted := true |};
     ToastSuccess "Account settings saved!"].
Proof. reflexivity. Qed.

(** A valid 2MB JPEG is selected, then the form is submitted. *)
Example scenario_submit_with_jpeg :
  history (exec bucket anyURL
             [FileChosen (Some jpeg2MB); SubmitRequested; Settled healthy]
             (initialPage alice))
  = [ClearErrors "image"; SetSelectedFile jpeg2MB; GetPresignedUrl;
     Fetch (url ticket1)
       {| method := "PUT"; headers := [("Content-Type", lit "image/jpeg")];
          body := jpeg2MB |};
     UpdateUser {| input_name := lit "Alice"; input_description := lit "Hi";
                   input_image := lit "https://bucket.example.com/k1";
                   setupCompleted := true |};
     ToastSuccess "Account settings saved!"].
Proof. reflexivity. Qed.

(** The ticket request is rejected: the update endpoint is not called and
    the failure notification is shown. *)
Example scenario_ticket_rejected :
  history (exec bucket anyURL
             [FileChosen (Some jpeg2MB); SubmitRequested; Settled ticketDown]
             (initialPage alice))
  = [ClearErrors "image"; SetSelectedFile jpeg2MB; GetPresignedUrl;
     SetError "image" {| message := "" |};
     ToastError "Couldn't upload your file."].
Proof. reflexivity. Qed.

(** ** Concrete instances of the further properties *)

Lemma staged_upload_path_witness :
  final (run healthy (onSubmit bucket (Some jpeg2MB) alice) (initialForm alice))
  = initialForm alice.
Proof.
  apply (staged_upload_path bucket healthy jpeg2MB alice (initialForm alice)
           ticket1 {| status := 200 |}); reflexivity.
Defined.

Lemma upload_rejection_aborts_witness :
  updateCalls (calls (run putDown (onSubmit bucket (Some jpeg2MB) alice)
                        (initialForm alice))) = [].
Proof.
  apply (upload_rejection_aborts bucket putDown jpeg2MB alice (initialForm alice)).
  right. exists ticket1. split; reflexivity.
Defined.

Lemma onSubmit_touches_only_image_error_witness :
  errors (final (run ticketDown (onSubmit bucket (Some jpeg2MB) alice)
                   (initialForm alice))) !! "name"
  = errors (initialForm alice) !! "name".
Proof.
  destruct (onSubmit_touches_only_image_error bucket ticketDown (Some jpeg2MB) alice
              (initialForm alice)) as (_ & _ & _ & _ & H).
  apply H. discriminate.
Defined.

Lemma handleFileSelect_is_local_witness :
  errors (final (run healthy (handleFileSelect (Some plainText)) (initialForm alice)))
    !! "name"
  = errors (initialForm alice) !! "name".
Proof.
  destruct (handleFileSelect_is_local healthy offline (Some plainText)
              (initialForm alice)) as (_ & _ & _ & _ & _ & H).
  apply H. discriminate.
Defined.

Lemma only_acceptable_files_are_staged_and_uploaded_witness : acceptable jpeg2MB.
Proof.
  destruct (only_acceptable_files_are_staged_and_uploaded bucket anyURL alice
              (exec bucket anyURL [FileChosen (Some jpeg2MB)] (initialPage alice)))
    as [H _].
  - by exists [FileChosen (Some jpeg2MB)].
  - apply H. reflexivity.
Defined.

Lemma staged_file_is_never_unstaged_witness :
  is_Some (selectedFile
             (form (exec bucket anyURL
                      [FileChosen (Some plainText); FileChosen None;
                       SubmitRequested; Settled healthy]
                      {| form := jpegStaged; inflight := []; history := [] |}))).
Proof.
  apply (staged_file_is_never_unstaged bucket anyURL
           {| form := jpegStaged; inflight := []; history := [] |}).
  exists jpeg2MB. reflexivity.
Defined.

Lemma resolver_accepts_iff_witness : parsed (resolver anyURL alice) = Some alice.
Proof.
  apply (resolver_accepts_iff anyURL alice alice).
  split; [reflexivity |]. split; [simpl; lia | reflexivity].
Defined.

Lemma resolver_error_fields_witness :
  fieldErrors (resolver anyURL blank) !! "description" = None.
Proof.
  destruct (resolver_error_fields anyURL blank) as (_ & _ & H).
  apply H; discriminate.
Defined.

Lemma success_toast_iff_update_fulfilled_witness :
  exists msg,
    ToastSuccess msg
    ∈ calls (run healthy (onSubmit bucket None alice) (initialForm alice)).
Proof.
  apply (success_toast_iff_update_fulfilled bucket healthy None alice (initialForm alice)).
  exists (spread alice true). split; [apply list_elem_of_here | reflexivity].
Defined.

Lemma update_forwards_name_and_description_witness :
  input_name (spread (set_image alice (lit "https://bucket.example.com/k1")) true)
  = name alice.
Proof.
  apply (update_forwards_name_and_description bucket healthy (Some jpeg2MB) alice
           (initialForm alice)).
  do 2 apply list_elem_of_further. apply list_elem_of_here.
Defined.

Lemma update_calls_carry_valid_names_witness :
  1 <= length (input_name (spread alice true)) <= 13
  /\ setupCompleted (spread alice true) = true.
Proof.
  apply (update_calls_carry_valid_names bucket anyURL alice
           (exec bucket anyURL [SubmitRequested; Settled healthy] (initialPage alice))).
  - by exists [SubmitRequested; Settled healthy].
  - apply list_elem_of_here.
Defined.

Lemma upload_failure_disables_submit_witness :
  submitDisabled
    (with_submitting false
       (final (run ticketDown (onSubmit bucket (Some jpeg2MB) alice)
                 (initialForm alice)))) = true.
Proof.
  apply (upload_failure_disables_submit bucket ticketDown jpeg2MB alice
           (initialForm alice)).
  left. reflexivity.
Defined.

Lemma useAuth_redirects_iff_destination_witness :
  getServerSideProps_useAuth unit unit unit loginRequired (mkContext tt tt)
  = redirect (lit "/login") false.
Proof.
  destruct (useAuth_redirects_iff_destination unit unit unit loginRequired
              (mkContext tt tt)) as (H & _ & _).
  apply H; [reflexivity | discriminate].
Defined.

Lemma file_select_after_failed_upload_reenables_submit_witness :
  submitDisabled
    (with_submitting false
       (final (run offline (handleFileSelect None)
                 (final (run ticketDown (onSubmit bucket (Some jpeg2MB) alice)
                           jpegStaged))))) = false.
Proof.
  apply (file_select_after_failed_upload_reenables_submit bucket ticketDown offline
           jpeg2MB alice jpegStaged None).
  - reflexivity.
  - left. reflexivity.
  - left. reflexivity.
Defined.

Lemma resubmit_with_file_uploads_again_witness :
  selectedFile (snd (resubmit bucket [ticketDown; healthy] alice jpegStaged))
  = Some jpeg2MB.
Proof.
  apply (resubmit_with_file_uploads_again bucket [ticketDown; healthy] jpeg2MB alice
           jpegStaged).
  reflexivity.
Defined.
